(** * Cyclic FIFO buffers of [task_2.py]

    A shallow embedding of the two ring buffers of [task_2.py]:
    [CyclicBufferOne], built on [collections.deque], and [CyclicBufferTwo],
    built on a fixed list with a write cursor.  Python integers are [Z],
    Python lists are [list], a raised exception is the [Raise] case of
    [result].  The object a method mutates is passed in and the mutated
    object is returned. *)

From stdpp Require Import base numbers list list_numbers.

Local Open Scope Z_scope.

(** ** Exceptions and results *)

(** The exceptions the modelled code can raise. *)
Inductive exn : Type :=
  | IndexError
  | ZeroDivisionError
  | ValueError.

Inductive result (A : Type) : Type :=
  | Ok (a : A)
  | Raise (e : exn).
Arguments Ok {A} a.
Arguments Raise {A} e.

Global Instance result_ret : MRet result := λ A a, Ok a.
Global Instance result_bind : MBind result := λ A B f m,
  match m with
  | Ok a => f a
  | Raise e => Raise e
  end.

(** The objects stored in a buffer are arbitrary; all the code needs of them
    is that Python's integers are among them ([[0] * buffer_size]). *)
Class PyInt (item : Type) := py_int : Z → item.
Global Instance Z_py_int : PyInt Z := λ n, n.

(** ** The Python operations the buffers use *)
Module Py.
Section list_ops.
Context {item : Type}.
Implicit Types (l : list item) (i n : Z) (x : item).

(** [len(l)] *)
Definition len l : Z := Z.of_nat (length l).

(** An index of [l[i]]: a negative [i] counts from the end, and what is
    out of range after that is an [IndexError]. *)
Definition index l i : result nat :=
  let j := if bool_decide (i < 0) then i + len l else i in
  if bool_decide (0 ≤ j < len l) then Ok (Z.to_nat j) else Raise IndexError.

(** [l[i]] *)
Definition getitem l i : result item :=
  j ← index l i;
  match l !! j with
  | Some x => Ok x
  | None => Raise IndexError
  end.

(** [l[i] = x] *)
Definition setitem l i x : result (list item) :=
  j ← index l i;
  Ok (<[j:=x]> l).

(** A bound of a slice: a negative bound counts from the end, and the
    result is clamped to [0 .. len(l)]. *)
Definition slice_bound l n : nat :=
  Z.to_nat (if bool_decide (n < 0) then Z.max (n + len l) 0 else Z.min n (len l)).

(** [l[:n]] *)
Definition slice_to l n : list item := take (slice_bound l n) l.

(** [l[n:]] *)
Definition slice_from l n : list item := drop (slice_bound l n) l.

(** [[x] * n]: empty when [n] is zero or negative. *)
Definition repeat x n : list item := replicate (Z.to_nat n) x.
End list_ops.

(** [a % b]: the remainder has the sign of [b], as [Z.modulo] has. *)
Definition mod_ (a b : Z) : result Z :=
  if bool_decide (b = 0) then Raise ZeroDivisionError else Ok (a `mod` b).

(** [range(n)]: the integers [0 .. n), none when [n] is zero or negative. *)
Definition range (n : Z) : list Z := seqZ 0 n.

(** The least integer the interpreter takes as a size or an index
    ([-sys.maxsize - 1] on a 64-bit build).  A size below it is refused with
    an [OverflowError] before [[0] * n] or [deque(maxlen=n)] looks at its
    sign; [repeat] and [deque.new] describe the sizes from here upwards, and
    the statements about zero and negative sizes are made for those. *)
Definition ssize_t_min : Z := - (2 ^ 63).
End Py.

(** ** [collections.deque] with a [maxlen] *)
Module deque.
Section deque.
Context {item : Type}.

Record t : Type := mk { items : list item; maxlen : Z }.

(** [deque(maxlen=n)]: a negative [maxlen] is a [ValueError]. *)
Definition new (n : Z) : result t :=
  if bool_decide (n < 0) then Raise ValueError
  else Ok {| items := []; maxlen := n |}.

(** [d.append(x)]: the item goes to the right end, and the left end is
    dropped when the deque has grown past [maxlen]. *)
Definition append (x : item) (d : t) : t :=
  let l := items d ++ [x] in
  {| items := if bool_decide (maxlen d < Py.len l) then tail l else l;
     maxlen := maxlen d |}.

(** [bool(d)] *)
Definition truth (d : t) : bool := bool_decide (Py.len (items d) ≠ 0).

(** [d[i]] *)
Definition getitem (d : t) (i : Z) : result item := Py.getitem (items d) i.

(** [list(d)] *)
Definition to_list (d : t) : list item := items d.
End deque.
Arguments t : clear implicits.
End deque.

(** ** [class CyclicBufferOne] *)
Module CyclicBufferOne.
Section methods.
Context {item : Type}.

Record t : Type := mk { buffer : deque.t item }.

Definition __init__ (buffer_size : Z) : result t :=
  d ← deque.new buffer_size;
  Ok {| buffer := d |}.

Definition append (x : item) (self : t) : result t :=
  Ok {| buffer := deque.append x (buffer self) |}.

Definition get_buffer (self : t) : result (list item) :=
  Ok (deque.to_list (buffer self)).

Definition peek_top (self : t) : result item :=
  if negb (deque.truth (buffer self)) then Raise IndexError
  else deque.getitem (buffer self) (-1).

Definition peek_bottom (self : t) : result item :=
  if negb (deque.truth (buffer self)) then Raise IndexError
  else deque.getitem (buffer self) 0.

(** [for x in xs: self.append(x)] *)
Fixpoint append_all (xs : list item) (self : t) : result t :=
  match xs with
  | [] => Ok self
  | x :: xs' => self' ← append x self; append_all xs' self'
  end.
End methods.
Arguments t : clear implicits.
End CyclicBufferOne.

(** ** [class CyclicBufferTwo] *)
Module CyclicBufferTwo.
Section methods.
Context {item : Type}.

Record t : Type := mk {
  buffer : list item;
  size : Z;
  position : Z;
  count : Z
}.

Definition __init__ `{!PyInt item} (buffer_size : Z) : result t :=
  Ok {| buffer := Py.repeat (py_int 0) buffer_size;
        size := buffer_size;
        position := 0;
        count := 0 |}.

Definition append (x : item) (self : t) : result t :=
  buffer' ← Py.setitem (buffer self) (position self) x;
  position' ← Py.mod_ (position self + 1) (size self);
  Ok {| buffer := buffer';
        size := size self;
        position := position';
        count := if bool_decide (count self < size self)
                 then count self + 1 else count self |}.

Definition get_buffer (self : t) : result (list item) :=
  if bool_decide (count self < size self) then
    Ok (Py.slice_to (buffer self) (count self))
  else
    Ok (Py.slice_from (buffer self) (position self)
        ++ Py.slice_to (buffer self) (position self)).

Definition peek_top (self : t) : result item :=
  if bool_decide (count self = 0) then Raise IndexError
  else
    i ← Py.mod_ (position self - 1) (size self);
    Py.getitem (buffer self) i.

Definition peek_bottom (self : t) : result item :=
  if bool_decide (count self = 0) then Raise IndexError
  else if bool_decide (count self < size self) then
    Py.getitem (buffer self) 0
  else
    Py.getitem (buffer self) (position self).

(** [for x in xs: self.append(x)] *)
Fixpoint append_all (xs : list item) (self : t) : result t :=
  match xs with
  | [] => Ok self
  | x :: xs' => self' ← append x self; append_all xs' self'
  end.
End methods.
Arguments t : clear implicits.
End CyclicBufferTwo.

(** ** The test drivers *)

(** What [test_buffer] asks of its argument: the three methods it calls.
    Both classes provide them. *)
Class Buffer (B : Type) : Type := {
  buffer_append : Z → B → result B;
  buffer_peek_top : B → result Z;
  buffer_peek_bottom : B → result Z
}.

Global Instance one_buffer : Buffer (CyclicBufferOne.t Z) := {|
  buffer_append := CyclicBufferOne.append;
  buffer_peek_top := CyclicBufferOne.peek_top;
  buffer_peek_bottom := CyclicBufferOne.peek_bottom
|}.

Global Instance two_buffer : Buffer (CyclicBufferTwo.t Z) := {|
  buffer_append := CyclicBufferTwo.append;
  buffer_peek_top := CyclicBufferTwo.peek_top;
  buffer_peek_bottom := CyclicBufferTwo.peek_bottom
|}.

(** The body of the loop of [test_buffer], for one [i]. *)
Definition test_buffer_step `{!Buffer B} (i : Z) (buffer : B) : result B :=
  buffer ← buffer_append i buffer;
  r ← Py.mod_ i 100;
  if bool_decide (r = 0) then
    _ ← buffer_peek_top buffer;
    _ ← buffer_peek_bottom buffer;
    Ok buffer
  else Ok buffer.

(** [for i in indices: ...], the loop of [test_buffer]. *)
Fixpoint test_buffer_loop `{!Buffer B} (indices : list Z) (buffer : B) : result B :=
  match indices with
  | [] => Ok buffer
  | i :: indices' =>
      buffer' ← test_buffer_step i buffer;
      test_buffer_loop indices' buffer'
  end.

(** [test_buffer(buffer)]; the function returns nothing, the model returns
    the buffer as the calls have left it. *)
Definition test_buffer `{!Buffer B} (buffer : B) : result B :=
  test_buffer_loop (Py.range 900000) buffer.

(** [test_buffer_one(buffer_size = 10)] *)
Definition test_buffer_one (buffer_size : option Z) : result (CyclicBufferOne.t Z) :=
  buffer ← CyclicBufferOne.__init__ (default 10 buffer_size);
  test_buffer buffer.

(** [test_buffer_two(buffer_size = 10)] *)
Definition test_buffer_two (buffer_size : option Z) : result (CyclicBufferTwo.t Z) :=
  buffer ← CyclicBufferTwo.__init__ (default 10 buffer_size);
  test_buffer buffer.

(** ** Vocabulary of the statements *)

(** The last [n] items of [xs], oldest first. *)
Definition lastn {item : Type} (n : nat) (xs : list item) : list item :=
  drop (length xs - n) xs.

(** A buffer constructed with [buffer_size] to which [xs] is appended, item
    by item. *)
Definition run_one {item : Type} (buffer_size : Z) (xs : list item)
    : result (CyclicBufferOne.t item) :=
  self ← CyclicBufferOne.__init__ buffer_size;
  CyclicBufferOne.append_all xs self.

Definition run_two `{!PyInt item} (buffer_size : Z) (xs : list item)
    : result (CyclicBufferTwo.t item) :=
  self ← CyclicBufferTwo.__init__ buffer_size;
  CyclicBufferTwo.append_all xs self.

(** The states a [CyclicBufferTwo] of [buffer_size] can be in. *)
Definition reachable `{!PyInt item} (buffer_size : Z)
    (self : CyclicBufferTwo.t item) : Prop :=
  ∃ xs, run_two buffer_size xs = Ok self.

(** What ties the fields of a [CyclicBufferTwo] of size [c] to the items
    [xs] appended so far. *)
Record inv {item : Type} (c : Z) (xs : list item)
    (self : CyclicBufferTwo.t item) : Prop := {
  inv_size : CyclicBufferTwo.size self = c;
  inv_len : Py.len (CyclicBufferTwo.buffer self) = c;
  inv_position : CyclicBufferTwo.position self = Py.len xs `mod` c;
  inv_count : CyclicBufferTwo.count self = Py.len xs `min` c;
  inv_contents :
    CyclicBufferTwo.get_buffer self = Ok (lastn (Z.to_nat c) xs)
}.

(** The deque of a [CyclicBufferOne] of size [c] holds the last [c] of
    the items [xs] appended so far. *)
Definition inv_one {item : Type} (c : Z) (xs : list item)
    (self : CyclicBufferOne.t item) : Prop :=
  deque.maxlen (CyclicBufferOne.buffer self) = c
  ∧ deque.items (CyclicBufferOne.buffer self) = lastn (Z.to_nat c) xs.

(** A buffer of size 5 after [append(7)] and [append(8)]. *)
Definition two_of_five : CyclicBufferTwo.t Z :=
  {| CyclicBufferTwo.buffer := [7; 8; 0; 0; 0];
     CyclicBufferTwo.size := 5;
     CyclicBufferTwo.position := 2;
     CyclicBufferTwo.count := 2 |}.

(** A buffer of size 3 after the appends of 1, 2, 3, 4 and 5. *)
Definition five_of_three : CyclicBufferTwo.t Z :=
  {| CyclicBufferTwo.buffer := [4; 5; 3];
     CyclicBufferTwo.size := 3;
     CyclicBufferTwo.position := 2;
     CyclicBufferTwo.count := 3 |}.

(** ** Python list operations inside their range *)
Section py_facts.
Context {item : Type}.
Implicit Types (l : list item) (x : item).

Lemma index_in_range l i :
  0 ≤ i < Py.len l → Py.index l i = Ok (Z.to_nat i).
Proof.
  intros Hi. unfold Py.index.
  rewrite (bool_decide_eq_false_2 (i < 0)) by lia.
  by rewrite bool_decide_eq_true_2.
Qed.

Lemma setitem_in_range l i x :
  0 ≤ i < Py.len l → Py.setitem l i x = Ok (<[Z.to_nat i:=x]> l).
Proof. intros Hi. unfold Py.setitem. by rewrite index_in_range. Qed.

Lemma getitem_in_range l i :
  0 ≤ i < Py.len l → ∃ x, l !! Z.to_nat i = Some x ∧ Py.getitem l i = Ok x.
Proof.
  intros Hi. unfold Py.getitem. rewrite index_in_range by done.
  destruct (lookup_lt_is_Some_2 l (Z.to_nat i)) as [x Hx].
  { unfold Py.len in Hi. lia. }
  exists x. simpl. by rewrite Hx.
Qed.

Lemma slice_to_nonneg l n : 0 ≤ n → Py.slice_to l n = take (Z.to_nat n) l.
Proof.
  intros Hn. unfold Py.slice_to, Py.slice_bound, Py.len.
  rewrite bool_decide_eq_false_2 by lia.
  destruct (decide (n ≤ Z.of_nat (length l))) as [Hle|Hgt].
  - by rewrite Z.min_l.
  - rewrite Z.min_r by lia. rewrite !take_ge; [done|lia|lia].
Qed.

Lemma slice_from_nonneg l n : 0 ≤ n → Py.slice_from l n = drop (Z.to_nat n) l.
Proof.
  intros Hn. unfold Py.slice_from, Py.slice_bound, Py.len.
  rewrite bool_decide_eq_false_2 by lia.
  destruct (decide (n ≤ Z.of_nat (length l))) as [Hle|Hgt].
  - by rewrite Z.min_l.
  - rewrite Z.min_r by lia. rewrite !drop_ge; [done|lia|lia].
Qed.

Lemma mod_nonzero a b : b ≠ 0 → Py.mod_ a b = Ok (a `mod` b).
Proof. intros Hb. unfold Py.mod_. by rewrite bool_decide_eq_false_2. Qed.

(** Writing at the cursor [p] and moving the cursor on drops the oldest
    item of the circular order and adds the new one at its end. *)
Lemma rotate_write l (p : nat) x :
  (p < length l)%nat →
  let p' := if decide (S p = length l) then 0%nat else S p in
  drop p' (<[p:=x]> l) ++ take p' (<[p:=x]> l)
  = tail (drop p l ++ take p l) ++ [x].
Proof.
  intros Hp p'.
  destruct (lookup_lt_is_Some_2 l p Hp) as [y Hy].
  rewrite (drop_S l y p Hy). simpl.
  rewrite (insert_take_drop l p x Hp).
  assert (Hlen : length (take p l) = p) by (rewrite length_take; lia).
  subst p'. case_decide as Hfull.
  - rewrite (drop_ge l (S p)) by lia. simpl. by rewrite app_nil_r.
  - rewrite drop_app_ge, take_app_ge by lia.
    rewrite Hlen. replace (S p - p)%nat with 1%nat by lia. simpl.
    by rewrite drop_0, take_0, <-app_assoc.
Qed.
End py_facts.

(** ** The invariant of [CyclicBufferTwo] *)
Section two_facts.
Context `{!PyInt item}.
Implicit Types (xs : list item) (x : item) (self : CyclicBufferTwo.t item).

Lemma two_append_all_snoc xs x self :
  CyclicBufferTwo.append_all (xs ++ [x]) self
  = (self' ← CyclicBufferTwo.append_all xs self; CyclicBufferTwo.append x self').
Proof.
  revert self. induction xs as [|y xs IH]; intros self; simpl.
  - by destruct (CyclicBufferTwo.append x self).
  - destruct (CyclicBufferTwo.append y self) as [self'|e]; simpl; [apply IH|done].
Qed.

Lemma lastn_short (n : nat) xs : (length xs ≤ n)%nat → lastn n xs = xs.
Proof. intros Hn. unfold lastn. by replace (length xs - n)%nat with 0%nat by lia. Qed.

Lemma lastn_snoc (n : nat) xs x :
  (n ≤ length xs)%nat → (0 < n)%nat →
  lastn n (xs ++ [x]) = tail (lastn n xs) ++ [x].
Proof.
  intros Hn Hpos. unfold lastn. rewrite length_app. simpl.
  replace (length xs + 1 - n)%nat with (S (length xs - n)) by lia.
  rewrite drop_app_le by lia.
  destruct (lookup_lt_is_Some_2 xs (length xs - n)) as [y Hy]; [lia|].
  by rewrite (drop_S xs y _ Hy).
Qed.

Lemma inv_init c self :
  1 ≤ c → CyclicBufferTwo.__init__ c = Ok self → inv c [] self.
Proof.
  intros Hc [= <-]. split; simpl; try done.
  - unfold Py.len, Py.repeat. rewrite length_replicate. lia.
  - unfold Py.len. simpl. lia.
  - unfold CyclicBufferTwo.get_buffer. simpl.
    rewrite bool_decide_eq_true_2 by lia.
    by rewrite slice_to_nonneg.
Qed.

Lemma inv_append c xs x self :
  1 ≤ c → inv c xs self →
  ∃ self', CyclicBufferTwo.append x self = Ok self' ∧ inv c (xs ++ [x]) self'.
Proof.
  destruct self as [B sz p cnt]. intros Hc [Hsz Hlen Hpos Hcnt Hcont].
  simpl in *. subst sz.
  assert (Hp : 0 ≤ p < c) by (subst p; apply Z.mod_pos_bound; lia).
  assert (Hsnoc : Py.len (xs ++ [x]) = Py.len xs + 1).
  { unfold Py.len. rewrite length_app. simpl. lia. }
  unfold CyclicBufferTwo.append. simpl.
  rewrite setitem_in_range by lia. rewrite mod_nonzero by lia. simpl.
  eexists. split; [done|].
  split; simpl; try done.
  - unfold Py.len in *. rewrite length_insert. done.
  - rewrite Hsnoc, Hpos. by rewrite Z.add_mod_idemp_l by lia.
  - rewrite Hsnoc. case_bool_decide; lia.
  - unfold CyclicBufferTwo.get_buffer in *. simpl in *.
    unfold Py.len in *.
    destruct (decide (Z.of_nat (length xs) < c)) as [Hpart|Hfull].
    + (* the buffer was not full: the cursor is the number of items *)
      rewrite Z.mod_small in Hpos by lia.
      rewrite Z.min_l in Hcnt by lia. subst cnt.
      rewrite bool_decide_eq_true_2 in Hcont by lia.
      rewrite (bool_decide_eq_true_2 (Z.of_nat (length xs) < c)) by lia.
      rewrite slice_to_nonneg in Hcont by lia.
      rewrite lastn_short in Hcont by lia.
      injection Hcont as Hcont.
      rewrite lastn_short by (rewrite length_app; simpl; lia).
      subst p. rewrite Nat2Z.id in *.
      assert (HB' : take (S (length xs)) (<[length xs:=x]> B) = xs ++ [x]).
      { rewrite (take_S_r _ _ x) by (apply list_lookup_insert_eq; lia).
        rewrite take_insert_ge by lia. by rewrite Hcont. }
      case_bool_decide as Hnext.
      * rewrite slice_to_nonneg by lia.
        replace (Z.to_nat (Z.of_nat (length xs) + 1)) with (S (length xs)) by lia.
        by rewrite HB'.
      * replace ((Z.of_nat (length xs) + 1) `mod` c) with 0
          by (replace c with (Z.of_nat (length xs) + 1) by lia;
              by rewrite Z.mod_same by lia).
        rewrite slice_from_nonneg, slice_to_nonneg by lia. simpl.
        rewrite drop_0, take_0, app_nil_r.
        rewrite <-HB'. rewrite take_ge; [done|]. rewrite length_insert. lia.
    + (* the buffer was full: the cursor is on the oldest item *)
      rewrite Z.min_r in Hcnt by lia. subst cnt.
      rewrite bool_decide_eq_false_2 in Hcont by lia.
      rewrite !(bool_decide_eq_false_2 (c < c)) by lia.
      rewrite slice_from_nonneg, slice_to_nonneg in Hcont by lia.
      injection Hcont as Hcont.
      assert (Hp1 : 0 ≤ (p + 1) `mod` c < c) by (apply Z.mod_pos_bound; lia).
      rewrite slice_from_nonneg, slice_to_nonneg by lia.
      rewrite lastn_snoc by lia. rewrite <-Hcont.
      rewrite <-(rotate_write B (Z.to_nat p) x) by lia.
      assert (Z.to_nat ((p + 1) `mod` c)
              = if decide (S (Z.to_nat p) = length B) then 0%nat
                else S (Z.to_nat p)) as ->; [|done].
      case_decide as Hwrap.
      * replace (p + 1) with c by lia. by rewrite Z.mod_same by lia.
      * rewrite Z.mod_small by lia. lia.
Qed.
End two_facts.

(** ** Consequences of the invariant *)
Section two_runs.
Context `{!PyInt item}.
Implicit Types (xs : list item) (x : item) (self : CyclicBufferTwo.t item).

Lemma run_two_snoc c xs x :
  run_two c (xs ++ [x])
  = (self ← run_two c xs; CyclicBufferTwo.append x self).
Proof. unfold run_two. simpl. apply two_append_all_snoc. Qed.

Lemma run_two_inv c xs :
  1 ≤ c → ∃ self, run_two c xs = Ok self ∧ inv c xs self.
Proof.
  intros Hc. induction xs as [|x xs IH] using rev_ind.
  - eexists. split; [done|]. by apply inv_init.
  - destruct IH as (self & Hrun & Hinv).
    destruct (inv_append c xs x self Hc Hinv) as (self' & Happ & Hinv').
    exists self'. split; [|done].
    rewrite run_two_snoc, Hrun. done.
Qed.

Lemma reachable_inv c self :
  1 ≤ c → reachable c self → ∃ xs, inv c xs self.
Proof.
  intros Hc [xs Hrun]. exists xs.
  destruct (run_two_inv c xs Hc) as (self' & Hrun' & Hinv). congruence.
Qed.

(** With a size of zero or less the storage is empty, and the first
    [append] raises at [self.buffer[self.position] = item]. *)
Lemma run_two_nonpos c x xs :
  c ≤ 0 → run_two c (x :: xs) = Raise IndexError.
Proof.
  intros Hc. unfold run_two, CyclicBufferTwo.append_all. simpl.
  unfold CyclicBufferTwo.append. simpl. unfold Py.repeat.
  by replace (Z.to_nat c) with 0%nat by lia.
Qed.

Lemma reachable_nonpos c self :
  c ≤ 0 → reachable c self →
  self = {| CyclicBufferTwo.buffer := []; CyclicBufferTwo.size := c;
            CyclicBufferTwo.position := 0; CyclicBufferTwo.count := 0 |}.
Proof.
  intros Hc [[|x xs] Hrun].
  - injection Hrun as <-. unfold Py.repeat.
    by replace (Z.to_nat c) with 0%nat by lia.
  - by rewrite run_two_nonpos in Hrun.
Qed.

Lemma reachable_append c x self self' :
  reachable c self → CyclicBufferTwo.append x self = Ok self' →
  reachable c self'.
Proof.
  intros [xs Hrun] Happ. exists (xs ++ [x]).
  by rewrite run_two_snoc, Hrun.
Qed.

Lemma inv_bounds c xs self :
  1 ≤ c → inv c xs self →
  0 ≤ CyclicBufferTwo.position self < c
  ∧ 0 ≤ CyclicBufferTwo.count self ≤ c.
Proof.
  intros Hc [_ _ -> -> _]. unfold Py.len. split; [|lia].
  apply Z.mod_pos_bound. lia.
Qed.

Lemma length_lastn (n : nat) xs : length (lastn n xs) = (length xs `min` n)%nat.
Proof. unfold lastn. rewrite length_drop. lia. Qed.

Lemma last_lastn (n : nat) xs : (0 < n)%nat → last (lastn n xs) = last xs.
Proof.
  intros Hn. destruct xs as [|x xs _] using rev_ind; [done|].
  destruct (decide (n ≤ length xs)%nat).
  - by rewrite lastn_snoc, !last_snoc by lia.
  - rewrite lastn_short; [done|]. rewrite length_app. simpl. lia.
Qed.

Lemma head_lastn (n : nat) xs :
  (0 < n)%nat → xs ≠ [] → ∃ b, head (lastn n xs) = Some b.
Proof.
  intros Hn Hne. destruct (head (lastn n xs)) as [b|] eqn:Hb; [eauto|].
  apply head_None in Hb. apply (f_equal length) in Hb.
  rewrite length_lastn in Hb.
  assert (0 < length xs)%nat by (destruct xs; [done|simpl; lia]).
  change (length (@nil item)) with 0%nat in Hb. lia.
Qed.
End two_runs.

(** ** Indexing the ends of a list *)
Section py_ends.
Context {item : Type}.
Implicit Types (ys : list item) (y : item).

Lemma getitem_first ys y : head ys = Some y → Py.getitem ys 0 = Ok y.
Proof. by destruct ys as [|? ?]; intros [= ->]. Qed.

Lemma getitem_last ys y : last ys = Some y → Py.getitem ys (-1) = Ok y.
Proof.
  intros Hy. assert (ys ≠ []) as Hne by (by intros ->).
  assert (0 < length ys)%nat by (destruct ys; [done|simpl; lia]).
  unfold Py.getitem, Py.index, Py.len.
  rewrite (bool_decide_eq_true_2 (-1 < 0)) by lia.
  rewrite bool_decide_eq_true_2 by lia. simpl.
  replace (Z.to_nat (-1 + Z.of_nat (length ys))) with (pred (length ys)) by lia.
  by rewrite <-last_lookup, Hy.
Qed.
End py_ends.

(** ** The peeks of [CyclicBufferTwo] *)
Section two_peeks.
Context {item : Type}.
Implicit Types (xs : list item) (self : CyclicBufferTwo.t item).

Lemma peek_top_empty self :
  CyclicBufferTwo.count self = 0 →
  CyclicBufferTwo.peek_top self = Raise IndexError.
Proof. intros H0. unfold CyclicBufferTwo.peek_top. by rewrite bool_decide_eq_true_2. Qed.

Lemma peek_bottom_empty self :
  CyclicBufferTwo.count self = 0 →
  CyclicBufferTwo.peek_bottom self = Raise IndexError.
Proof. intros H0. unfold CyclicBufferTwo.peek_bottom. by rewrite bool_decide_eq_true_2. Qed.

Lemma inv_peek_top c xs self t :
  1 ≤ c → inv c xs self → last xs = Some t →
  CyclicBufferTwo.peek_top self = Ok t.
Proof.
  destruct self as [B sz p cnt]. intros Hc [Hsz Hlen Hpos Hcnt Hcont] Ht.
  simpl in *. subst sz. unfold Py.len in *.
  assert (0 < length xs)%nat by (destruct xs; [done|simpl; lia]).
  assert (Hp : 0 ≤ p < c) by (subst p; apply Z.mod_pos_bound; lia).
  assert (Hi : 0 ≤ (p - 1) `mod` c < c) by (apply Z.mod_pos_bound; lia).
  unfold CyclicBufferTwo.peek_top. simpl.
  rewrite bool_decide_eq_false_2 by lia.
  rewrite mod_nonzero by lia. simpl.
  destruct (getitem_in_range B ((p - 1) `mod` c)) as (y & Hy & ->);
    [unfold Py.len; lia|].
  f_equal. unfold CyclicBufferTwo.get_buffer in Hcont. simpl in Hcont.
  destruct (decide (Z.of_nat (length xs) < c)) as [Hpart|Hfull].
  - rewrite Z.mod_small in Hpos by lia.
    rewrite Z.min_l in Hcnt by lia. subst cnt p.
    rewrite bool_decide_eq_true_2 in Hcont by lia.
    rewrite slice_to_nonneg, lastn_short in Hcont by lia.
    injection Hcont as Hcont.
    rewrite Z.mod_small in Hy by lia.
    replace (Z.to_nat (Z.of_nat (length xs) - 1)) with (pred (length xs)) in Hy by lia.
    rewrite <-(lookup_take_lt _ (length xs)) in Hy by lia.
    rewrite Nat2Z.id in Hcont. rewrite Hcont, <-last_lookup in Hy. congruence.
  - rewrite Z.min_r in Hcnt by lia. subst cnt.
    rewrite bool_decide_eq_false_2 in Hcont by lia.
    rewrite slice_from_nonneg, slice_to_nonneg in Hcont by lia.
    injection Hcont as Hcont.
    apply (f_equal last) in Hcont.
    rewrite last_lastn, Ht, last_app in Hcont by lia.
    destruct (decide (p = 0)) as [->|Hnz].
    + simpl in Hcont. change (Z.to_nat 0) with 0%nat in Hcont.
      rewrite drop_0, last_lookup in Hcont.
      replace (Z.to_nat ((0 - 1) `mod` c)) with (pred (length B)) in Hy; [congruence|].
      replace (0 - 1) with (c - 1 + (-1) * c) by lia.
      rewrite Z.mod_add, Z.mod_small by lia. lia.
    + rewrite Z.mod_small in Hy by lia.
      rewrite last_lookup, length_take in Hcont.
      replace (pred (Z.to_nat p `min` length B)) with (Z.to_nat (p - 1)) in Hcont by lia.
      rewrite lookup_take_lt in Hcont by lia.
      rewrite Hy in Hcont. congruence.
Qed.

Lemma inv_peek_bottom c xs self b :
  1 ≤ c → inv c xs self → head (lastn (Z.to_nat c) xs) = Some b →
  CyclicBufferTwo.peek_bottom self = Ok b.
Proof.
  destruct self as [B sz p cnt]. intros Hc [Hsz Hlen Hpos Hcnt Hcont] Hb.
  simpl in *. subst sz. unfold Py.len in *.
  assert (0 < length xs)%nat.
  { destruct xs; [|simpl; lia]. unfold lastn in Hb. by rewrite drop_nil in Hb. }
  assert (Hp : 0 ≤ p < c) by (subst p; apply Z.mod_pos_bound; lia).
  unfold CyclicBufferTwo.peek_bottom. simpl.
  rewrite bool_decide_eq_false_2 by lia.
  unfold CyclicBufferTwo.get_buffer in Hcont. simpl in Hcont.
  case_bool_decide as Hpart; injection Hcont as Hcont; rewrite <-Hcont in Hb.
  - apply getitem_first. rewrite slice_to_nonneg in Hb by lia.
    rewrite head_lookup in *. rewrite lookup_take_lt in Hb by lia. done.
  - rewrite slice_from_nonneg, slice_to_nonneg in Hb by lia.
    destruct (getitem_in_range B p) as (y & Hy & ->); [unfold Py.len; lia|].
    rewrite (drop_S _ _ _ Hy) in Hb. simpl in Hb. congruence.
Qed.
End two_peeks.

(** ** The invariant of [CyclicBufferOne] *)
Section one_facts.
Context {item : Type}.
Implicit Types (xs : list item) (x : item) (self : CyclicBufferOne.t item).

Lemma one_append_all_snoc xs x self :
  CyclicBufferOne.append_all (xs ++ [x]) self
  = (self' ← CyclicBufferOne.append_all xs self; CyclicBufferOne.append x self').
Proof.
  revert self. induction xs as [|y xs IH]; intros self; simpl; [done|apply IH].
Qed.

Lemma run_one_snoc c xs x :
  run_one c (xs ++ [x]) = (self ← run_one c xs; CyclicBufferOne.append x self).
Proof.
  unfold run_one. destruct (CyclicBufferOne.__init__ c) as [self|e]; simpl; [|done].
  apply one_append_all_snoc.
Qed.

Lemma inv_one_append c xs x self :
  0 ≤ c → inv_one c xs self →
  ∃ self', CyclicBufferOne.append x self = Ok self' ∧ inv_one c (xs ++ [x]) self'.
Proof.
  destruct self as [[l m]]. unfold inv_one. simpl. intros Hc [-> ->].
  eexists. split; [done|]. simpl. split; [done|].
  unfold Py.len. rewrite length_app, length_lastn. simpl.
  case_bool_decide as Hfull.
  - destruct (decide (c = 0)) as [->|Hnz].
    + unfold lastn. rewrite !drop_ge; [done| |]; rewrite ?length_app; simpl; lia.
    + rewrite lastn_snoc by lia.
      destruct (lastn (Z.to_nat c) xs) eqn:Hl; [|done].
      apply (f_equal length) in Hl. rewrite length_lastn in Hl. simpl in Hl. lia.
  - rewrite !lastn_short; [done| |]; rewrite ?length_app; simpl; lia.
Qed.

Lemma run_one_inv c xs :
  0 ≤ c → ∃ self, run_one c xs = Ok self ∧ inv_one c xs self.
Proof.
  intros Hc. induction xs as [|x xs IH] using rev_ind.
  - unfold run_one, CyclicBufferOne.__init__, deque.new.
    rewrite bool_decide_eq_false_2 by lia. simpl.
    eexists. split; [done|]. by split.
  - destruct IH as (self & Hrun & Hinv).
    destruct (inv_one_append c xs x self Hc Hinv) as (self' & Happ & Hinv').
    exists self'. split; [|done]. by rewrite run_one_snoc, Hrun.
Qed.

Lemma inv_one_get_buffer c xs self :
  inv_one c xs self →
  CyclicBufferOne.get_buffer self = Ok (lastn (Z.to_nat c) xs).
Proof. intros [_ Hitems]. unfold CyclicBufferOne.get_buffer, deque.to_list. by rewrite Hitems. Qed.

Lemma one_peek_top_last self t :
  last (deque.items (CyclicBufferOne.buffer self)) = Some t →
  CyclicBufferOne.peek_top self = Ok t.
Proof.
  intros Ht. unfold CyclicBufferOne.peek_top, deque.truth, deque.getitem, Py.len.
  destruct (deque.items (CyclicBufferOne.buffer self)) as [|y ys] eqn:Hl; [done|].
  rewrite bool_decide_eq_true_2 by (simpl; lia). simpl negb. cbv iota.
  by apply getitem_last.
Qed.

Lemma one_peek_bottom_first self b :
  head (deque.items (CyclicBufferOne.buffer self)) = Some b →
  CyclicBufferOne.peek_bottom self = Ok b.
Proof.
  intros Hb. unfold CyclicBufferOne.peek_bottom, deque.truth, deque.getitem, Py.len.
  destruct (deque.items (CyclicBufferOne.buffer self)) as [|y ys] eqn:Hl; [done|].
  rewrite bool_decide_eq_true_2 by (simpl; lia). simpl negb. cbv iota.
  by apply getitem_first.
Qed.

Lemma one_peek_empty self :
  deque.items (CyclicBufferOne.buffer self) = [] →
  CyclicBufferOne.peek_top self = Raise IndexError
  ∧ CyclicBufferOne.peek_bottom self = Raise IndexError.
Proof.
  intros Hl. unfold CyclicBufferOne.peek_top, CyclicBufferOne.peek_bottom, deque.truth.
  by rewrite Hl.
Qed.
End one_facts.

(** The last [c] of the integers [0 .. c + k) are [k .. c + k). *)
Lemma lastn_seqZ (c k : Z) :
  0 ≤ c → 0 ≤ k → lastn (Z.to_nat c) (seqZ 0 (c + k)) = seqZ k c.
Proof.
  intros Hc Hk. unfold lastn. rewrite length_seqZ.
  replace (c + k) with (k + c) by lia. rewrite seqZ_app by lia.
  apply drop_app_length'. rewrite length_seqZ. lia.
Qed.

(** * The properties of the buffers *)

(** C1 (FIFO overwrite): for every capacity [c >= 1] and every [k >= 0],
    appending the [c + k] increasing integers [0 .. c + k) to a freshly
    constructed buffer of capacity [c] leaves [get_buffer()] equal to
    [[k, k + 1, ..., c + k - 1]], in that order; this holds of
    [CyclicBufferTwo] and of [CyclicBufferOne]. *)
Theorem fifo_overwrite (c k : Z) :
  1 ≤ c → 0 ≤ k →
  (∃ self, run_two c (seqZ 0 (c + k)) = Ok self
           ∧ CyclicBufferTwo.get_buffer self = Ok (seqZ k c))
  ∧ (∃ self, run_one c (seqZ 0 (c + k)) = Ok self
             ∧ CyclicBufferOne.get_buffer self = Ok (seqZ k c)).
Proof.
  intros Hc Hk. split.
  - destruct (run_two_inv c (seqZ 0 (c + k)) Hc) as (self & Hrun & Hinv).
    exists self. split; [done|].
    rewrite (inv_contents _ _ _ Hinv). by rewrite lastn_seqZ by lia.
  - destruct (run_one_inv c (seqZ 0 (c + k))) as (self & Hrun & Hinv); [lia|].
    exists self. split; [done|].
    rewrite (inv_one_get_buffer _ _ _ Hinv). by rewrite lastn_seqZ by lia.
Qed.

Lemma fifo_overwrite_witness :
  (1 ≤ 3 ∧ 0 ≤ 2)
  ∧ (∃ self, run_two 3 (seqZ 0 (3 + 2)) = Ok self
             ∧ CyclicBufferTwo.get_buffer self = Ok (seqZ 2 3))
  ∧ (∃ self, run_one 3 (seqZ 0 (3 + 2)) = Ok self
             ∧ CyclicBufferOne.get_buffer self = Ok (seqZ 2 3)).
Proof. split; [lia|apply (fifo_overwrite 3 2); lia]. Defined.

(** C2 (what [get_buffer] returns): in every reachable state of a
    [CyclicBufferTwo], [get_buffer()] returns [buffer[0 .. count)] when
    [count < size], and [buffer[position .. size)] followed by
    [buffer[0 .. position)] when [count == size]; both bounds lie inside the
    storage; it never raises, and it returns the empty list when
    [count == 0]. *)
Theorem get_buffer_linearizes `{!PyInt item} (c : Z) (self : CyclicBufferTwo.t item) :
  reachable c self →
  let storage := CyclicBufferTwo.buffer self in
  let count := CyclicBufferTwo.count self in
  let position := CyclicBufferTwo.position self in
  (0 ≤ count ≤ Py.len storage ∧ 0 ≤ position ≤ Py.len storage)
  ∧ (count < CyclicBufferTwo.size self →
     CyclicBufferTwo.get_buffer self = Ok (take (Z.to_nat count) storage))
  ∧ (count = CyclicBufferTwo.size self →
     CyclicBufferTwo.get_buffer self
     = Ok (drop (Z.to_nat position) storage ++ take (Z.to_nat position) storage))
  ∧ (∃ ys, CyclicBufferTwo.get_buffer self = Ok ys)
  ∧ (count = 0 → CyclicBufferTwo.get_buffer self = Ok []).
Proof.
  intros Hreach. destruct (decide (1 ≤ c)) as [Hc|Hc].
  - destruct (reachable_inv c self Hc Hreach) as (xs & Hinv).
    destruct (inv_bounds c xs self Hc Hinv) as [Hp Hcnt].
    pose proof Hinv as [Hsz Hlen Hpos Hcount Hcont]. simpl.
    split; [lia|]. unfold CyclicBufferTwo.get_buffer in *.
    split; [|split; [|split]].
    + intros Hlt. rewrite bool_decide_eq_true_2 by done.
      by rewrite slice_to_nonneg by lia.
    + intros Heq. rewrite bool_decide_eq_false_2 by lia.
      by rewrite slice_from_nonneg, slice_to_nonneg by lia.
    + case_bool_decide; eauto.
    + intros H0. rewrite H0, bool_decide_eq_true_2 by lia.
      by rewrite slice_to_nonneg.
  - rewrite (reachable_nonpos c self) by (done || lia). simpl.
    unfold CyclicBufferTwo.get_buffer, Py.len. simpl.
    split; [lia|]. split; [|split; [|split]].
    + intros Hlt. lia.
    + intros Heq. by rewrite bool_decide_eq_false_2 by lia.
    + case_bool_decide; eauto.
    + intros _. by rewrite bool_decide_eq_false_2 by lia.
Qed.

Lemma get_buffer_linearizes_witness :
  reachable 5 two_of_five
  ∧ CyclicBufferTwo.get_buffer two_of_five = Ok [7; 8]
  ∧ reachable 3 five_of_three
  ∧ CyclicBufferTwo.get_buffer five_of_three = Ok [3; 4; 5].
Proof.
  assert (H5 : reachable 5 two_of_five) by (exists [7; 8]; reflexivity).
  assert (H3 : reachable 3 five_of_three) by (exists [1; 2; 3; 4; 5]; reflexivity).
  split; [exact H5|]. split.
  - apply (get_buffer_linearizes 5 two_of_five H5). reflexivity.
  - split; [exact H3|].
    apply (get_buffer_linearizes 3 five_of_three H3). reflexivity.
Defined.

(** C3 (capacity bound): for every capacity [c >= 1] and every finite
    sequence of appends to a [CyclicBufferTwo] of capacity [c], the appends
    succeed, [get_buffer()] has at most [c] items, and
    [0 <= count <= size = c]. *)
Theorem capacity_bound `{!PyInt item} (c : Z) (xs : list item) :
  1 ≤ c →
  ∃ self ys,
    run_two c xs = Ok self
    ∧ CyclicBufferTwo.get_buffer self = Ok ys
    ∧ Py.len ys ≤ c
    ∧ CyclicBufferTwo.size self = c
    ∧ 0 ≤ CyclicBufferTwo.count self ≤ CyclicBufferTwo.size self.
Proof.
  intros Hc. destruct (run_two_inv c xs Hc) as (self & Hrun & Hinv).
  exists self, (lastn (Z.to_nat c) xs).
  destruct (inv_bounds c xs self Hc Hinv) as [_ Hcnt].
  split; [done|]. split; [by apply inv_contents|].
  split; [unfold Py.len; rewrite length_lastn; lia|].
  rewrite (inv_size _ _ _ Hinv). done.
Qed.

Lemma capacity_bound_witness :
  1 ≤ 2
  ∧ ∃ self ys,
      run_two 2 [10; 20; 30] = Ok self
      ∧ CyclicBufferTwo.get_buffer self = Ok ys
      ∧ Py.len ys ≤ 2
      ∧ CyclicBufferTwo.size self = 2
      ∧ 0 ≤ CyclicBufferTwo.count self ≤ CyclicBufferTwo.size self.
Proof. split; [lia|apply (capacity_bound 2 [10; 20; 30]); lia]. Defined.

(** C4 (peek correctness): for every capacity [c >= 1] and every non-empty
    sequence of appends to a [CyclicBufferTwo], [peek_top()] returns
    [get_buffer()[-1]] and [peek_bottom()] returns [get_buffer()[0]]. *)
Theorem peek_correct `{!PyInt item} (c : Z) (xs : list item) :
  1 ≤ c → xs ≠ [] →
  ∃ self ys newest oldest,
    run_two c xs = Ok self
    ∧ CyclicBufferTwo.get_buffer self = Ok ys
    ∧ CyclicBufferTwo.peek_top self = Ok newest
    ∧ Py.getitem ys (-1) = Ok newest
    ∧ CyclicBufferTwo.peek_bottom self = Ok oldest
    ∧ Py.getitem ys 0 = Ok oldest.
Proof.
  intros Hc Hne. destruct (run_two_inv c xs Hc) as (self & Hrun & Hinv).
  destruct (last xs) as [t|] eqn:Ht; [|by apply last_None in Ht].
  destruct (head_lastn (Z.to_nat c) xs) as [b Hb]; [lia|done|].
  exists self, (lastn (Z.to_nat c) xs), t, b.
  split; [done|]. split; [by apply inv_contents|].
  split; [by eapply inv_peek_top|].
  split; [apply getitem_last; by rewrite last_lastn by lia|].
  split; [by eapply inv_peek_bottom|]. by apply getitem_first.
Qed.

Lemma peek_correct_witness :
  (1 ≤ 3 ∧ [1; 2; 3; 4; 5] ≠ [])
  ∧ ∃ self ys newest oldest,
      run_two 3 [1; 2; 3; 4; 5] = Ok self
      ∧ CyclicBufferTwo.get_buffer self = Ok ys
      ∧ CyclicBufferTwo.peek_top self = Ok newest
      ∧ Py.getitem ys (-1) = Ok newest
      ∧ CyclicBufferTwo.peek_bottom self = Ok oldest
      ∧ Py.getitem ys 0 = Ok oldest.
Proof.
  split; [split; [lia|discriminate]|].
  apply (peek_correct 3 [1; 2; 3; 4; 5]); [lia|discriminate].
Defined.

(** C5 (the two implementations agree): for every capacity [c >= 1] and
    every finite sequence of appends, the appends succeed on a
    [CyclicBufferOne] and on a [CyclicBufferTwo], and [get_buffer],
    [peek_top] and [peek_bottom] give the same outcome on both: the same
    value, or the same exception. *)
Theorem implementations_agree `{!PyInt item} (c : Z) (xs : list item) :
  1 ≤ c →
  ∃ one two,
    run_one c xs = Ok one
    ∧ run_two c xs = Ok two
    ∧ CyclicBufferOne.get_buffer one = CyclicBufferTwo.get_buffer two
    ∧ CyclicBufferOne.peek_top one = CyclicBufferTwo.peek_top two
    ∧ CyclicBufferOne.peek_bottom one = CyclicBufferTwo.peek_bottom two.
Proof.
  intros Hc.
  destruct (run_one_inv c xs) as (one & Hrun1 & Hinv1); [lia|].
  destruct (run_two_inv c xs Hc) as (two & Hrun2 & Hinv2).
  exists one, two. split; [done|]. split; [done|].
  split.
  { by rewrite (inv_one_get_buffer _ _ _ Hinv1), (inv_contents _ _ _ Hinv2). }
  destruct Hinv1 as [_ Hitems].
  destruct xs as [|x xs _] using rev_ind.
  - destruct (one_peek_empty one) as [-> ->]; [by rewrite Hitems|].
    assert (CyclicBufferTwo.count two = 0) as H0.
    { rewrite (inv_count _ _ _ Hinv2). unfold Py.len. simpl. lia. }
    by rewrite peek_top_empty, peek_bottom_empty.
  - destruct (head_lastn (Z.to_nat c) (xs ++ [x])) as [b Hb];
      [lia|by destruct xs|].
    rewrite (one_peek_top_last one x)
      by (by rewrite Hitems, last_lastn, last_snoc by lia).
    rewrite (one_peek_bottom_first one b) by (by rewrite Hitems).
    rewrite (inv_peek_top c (xs ++ [x]) two x Hc Hinv2) by apply last_snoc.
    by rewrite (inv_peek_bottom c (xs ++ [x]) two b Hc Hinv2).
Qed.

Lemma implementations_agree_witness :
  1 ≤ 3
  ∧ ∃ one two,
      run_one 3 [1; 2; 3; 4] = Ok one
      ∧ run_two 3 [1; 2; 3; 4] = Ok two
      ∧ CyclicBufferOne.get_buffer one = CyclicBufferTwo.get_buffer two
      ∧ CyclicBufferOne.peek_top one = CyclicBufferTwo.peek_top two
      ∧ CyclicBufferOne.peek_bottom one = CyclicBufferTwo.peek_bottom two.
Proof. split; [lia|apply (implementations_agree 3 [1; 2; 3; 4]); lia]. Defined.

(** C6, as the code has it: the classes check nothing at construction.
    For every [buffer_size] the interpreter takes as a size
    ([buffer_size >= -2**63]), zero and negative ones included, constructing
    a [CyclicBufferTwo] succeeds and yields an empty buffer with
    [count = 0], [position = 0] and a storage of [max(buffer_size, 0)]
    slots.  Constructing a [CyclicBufferOne] succeeds for every
    [buffer_size >= 0] and yields an empty buffer; for a negative
    [buffer_size] in that range it raises the [ValueError] of [deque].
    Below that range nothing is stated. *)
Theorem construction `{!PyInt item} (c : Z) :
  Py.ssize_t_min ≤ c →
  (∃ self : CyclicBufferTwo.t item,
     CyclicBufferTwo.__init__ c = Ok self
     ∧ CyclicBufferTwo.count self = 0
     ∧ CyclicBufferTwo.position self = 0
     ∧ CyclicBufferTwo.size self = c
     ∧ Py.len (CyclicBufferTwo.buffer self) = c `max` 0
     ∧ CyclicBufferTwo.get_buffer self = Ok [])
  ∧ (0 ≤ c →
     ∃ self : CyclicBufferOne.t item,
       CyclicBufferOne.__init__ c = Ok self
       ∧ CyclicBufferOne.get_buffer self = Ok [])
  ∧ (c < 0 → CyclicBufferOne.__init__ (item:=item) c = Raise ValueError).
Proof.
  intros _. split; [|split].
  - eexists. split; [done|]. simpl. repeat (split; [done|]). split.
    + unfold Py.len, Py.repeat. rewrite length_replicate. lia.
    + unfold CyclicBufferTwo.get_buffer, Py.repeat. simpl.
      case_bool_decide.
      * by rewrite slice_to_nonneg.
      * rewrite slice_from_nonneg, slice_to_nonneg by done.
        replace (Z.to_nat c) with 0%nat by lia. done.
  - intros Hc. unfold CyclicBufferOne.__init__, deque.new.
    rewrite bool_decide_eq_false_2 by lia. simpl. eauto.
  - intros Hc. unfold CyclicBufferOne.__init__, deque.new.
    by rewrite bool_decide_eq_true_2.
Qed.

Lemma construction_witness :
  Py.ssize_t_min ≤ -1
  ∧ (∃ self : CyclicBufferTwo.t Z,
       CyclicBufferTwo.__init__ (-1) = Ok self
       ∧ CyclicBufferTwo.count self = 0
       ∧ CyclicBufferTwo.position self = 0
       ∧ CyclicBufferTwo.size self = -1
       ∧ Py.len (CyclicBufferTwo.buffer self) = (-1) `max` 0
       ∧ CyclicBufferTwo.get_buffer self = Ok [])
  ∧ CyclicBufferOne.__init__ (item:=Z) (-1) = Raise ValueError.
Proof.
  assert (Hmin : Py.ssize_t_min ≤ -1) by (unfold Py.ssize_t_min; lia).
  split; [exact Hmin|].
  destruct (construction (item:=Z) (-1) Hmin) as (Htwo & _ & Hone).
  split; [exact Htwo|apply Hone; lia].
Defined.

(** C6, as the specification words it, fails on the code: constructing a
    [CyclicBufferTwo] with a capacity of zero, or of minus one, raises
    nothing and returns a buffer. *)
Lemma construction_unchecked :
  CyclicBufferTwo.__init__ (item:=Z) 0
  = Ok {| CyclicBufferTwo.buffer := []; CyclicBufferTwo.size := 0;
          CyclicBufferTwo.position := 0; CyclicBufferTwo.count := 0 |}
  ∧ CyclicBufferTwo.__init__ (item:=Z) (-1)
    = Ok {| CyclicBufferTwo.buffer := []; CyclicBufferTwo.size := -1;
            CyclicBufferTwo.position := 0; CyclicBufferTwo.count := 0 |}
  ∧ ¬ (∀ c : Z, c ≤ 0 → ∃ e, CyclicBufferTwo.__init__ (item:=Z) c = Raise e).
Proof.
  split; [done|]. split; [done|].
  intros Hfail. destruct (Hfail 0) as [e He]; [lia|]. discriminate He.
Qed.

(** C7 (empty-state errors): in every reachable state of a
    [CyclicBufferTwo], [peek_top()] fails if and only if [count == 0], and
    so does [peek_bottom()]; the failure is the [IndexError] of the empty
    buffer, and both return an item whenever [count > 0].  Both fail on a
    freshly constructed buffer. *)
Theorem peek_fails_iff_empty `{!PyInt item} (c : Z) (self : CyclicBufferTwo.t item) :
  reachable c self →
  ((∃ e, CyclicBufferTwo.peek_top self = Raise e) ↔ CyclicBufferTwo.count self = 0)
  ∧ ((∃ e, CyclicBufferTwo.peek_bottom self = Raise e) ↔ CyclicBufferTwo.count self = 0)
  ∧ (CyclicBufferTwo.count self = 0 →
     CyclicBufferTwo.peek_top self = Raise IndexError
     ∧ CyclicBufferTwo.peek_bottom self = Raise IndexError)
  ∧ (0 < CyclicBufferTwo.count self →
     (∃ newest, CyclicBufferTwo.peek_top self = Ok newest)
     ∧ (∃ oldest, CyclicBufferTwo.peek_bottom self = Ok oldest))
  ∧ (∀ fresh, CyclicBufferTwo.__init__ c = Ok fresh →
     CyclicBufferTwo.peek_top fresh = Raise IndexError
     ∧ CyclicBufferTwo.peek_bottom fresh = Raise IndexError).
Proof.
  intros Hreach.
  assert (Hcnt : 0 ≤ CyclicBufferTwo.count self).
  { destruct (decide (1 ≤ c)) as [Hc|Hc].
    - destruct (reachable_inv c self Hc Hreach) as (xs & Hinv).
      by destruct (inv_bounds c xs self Hc Hinv) as [_ [? _]].
    - by rewrite (reachable_nonpos c self) by (done || lia). }
  assert (Hempty : CyclicBufferTwo.count self = 0 →
     CyclicBufferTwo.peek_top self = Raise IndexError
     ∧ CyclicBufferTwo.peek_bottom self = Raise IndexError).
  { intros H0. by rewrite peek_top_empty, peek_bottom_empty. }
  assert (Hsome : 0 < CyclicBufferTwo.count self →
     (∃ newest, CyclicBufferTwo.peek_top self = Ok newest)
     ∧ (∃ oldest, CyclicBufferTwo.peek_bottom self = Ok oldest)).
  { intros Hpos. destruct (decide (1 ≤ c)) as [Hc|Hc].
    - destruct (reachable_inv c self Hc Hreach) as (xs & Hinv).
      assert (xs ≠ []) as Hne.
      { intros ->. rewrite (inv_count _ _ _ Hinv) in Hpos.
        unfold Py.len in Hpos. simpl in Hpos. lia. }
      destruct (last xs) as [t|] eqn:Ht; [|by apply last_None in Ht].
      destruct (head_lastn (Z.to_nat c) xs) as [b Hb]; [lia|done|].
      split; [exists t; by eapply inv_peek_top|exists b; by eapply inv_peek_bottom].
    - rewrite (reachable_nonpos c self) in Hpos by (done || lia).
      simpl in Hpos. lia. }
  split; [|split; [|split; [done|split; [done|]]]].
  - split.
    + intros [e He]. destruct (decide (CyclicBufferTwo.count self = 0)); [done|].
      destruct Hsome as [[t Ht] _]; [lia|congruence].
    + intros H0. exists IndexError. by apply Hempty.
  - split.
    + intros [e He]. destruct (decide (CyclicBufferTwo.count self = 0)); [done|].
      destruct Hsome as [_ [b Hb]]; [lia|congruence].
    + intros H0. exists IndexError. by apply Hempty.
  - intros fresh [= <-]. by rewrite peek_top_empty, peek_bottom_empty.
Qed.

Lemma peek_fails_iff_empty_witness :
  reachable 3 five_of_three
  ∧ (∃ newest, CyclicBufferTwo.peek_top five_of_three = Ok newest)
  ∧ (∃ oldest, CyclicBufferTwo.peek_bottom five_of_three = Ok oldest).
Proof.
  assert (H3 : reachable 3 five_of_three) by (exists [1; 2; 3; 4; 5]; reflexivity).
  split; [exact H3|].
  destruct (peek_fails_iff_empty 3 five_of_three H3) as (_ & _ & _ & Hsome & _).
  apply Hsome. reflexivity.
Defined.

(** C8 (the effect of [append]): in every reachable state of a
    [CyclicBufferTwo] of capacity [c >= 1], and for every item,
    [append(item)] succeeds; it stores the item at [buffer[position]], a
    slot of the storage, sets [position] to [(position + 1) mod c], adds one
    to [count] when [count < c] and leaves it at [c] otherwise; [size] and
    the other slots keep their values. *)
Theorem append_effect `{!PyInt item} (c : Z) (self : CyclicBufferTwo.t item) (x : item) :
  1 ≤ c → reachable c self →
  CyclicBufferTwo.size self = c
  ∧ 0 ≤ CyclicBufferTwo.position self < Py.len (CyclicBufferTwo.buffer self)
  ∧ 0 ≤ CyclicBufferTwo.count self ≤ c
  ∧ CyclicBufferTwo.append x self
    = Ok {| CyclicBufferTwo.buffer :=
              <[Z.to_nat (CyclicBufferTwo.position self) := x]>
                (CyclicBufferTwo.buffer self);
            CyclicBufferTwo.size := CyclicBufferTwo.size self;
            CyclicBufferTwo.position := (CyclicBufferTwo.position self + 1) `mod` c;
            CyclicBufferTwo.count :=
              if bool_decide (CyclicBufferTwo.count self < c)
              then CyclicBufferTwo.count self + 1 else c |}.
Proof.
  intros Hc Hreach. destruct (reachable_inv c self Hc Hreach) as (xs & Hinv).
  destruct (inv_bounds c xs self Hc Hinv) as [Hp Hcnt].
  pose proof (inv_size _ _ _ Hinv) as Hsz.
  pose proof (inv_len _ _ _ Hinv) as Hlen.
  split; [done|]. split; [lia|]. split; [done|].
  unfold CyclicBufferTwo.append.
  rewrite setitem_in_range by lia. rewrite mod_nonzero by lia. simpl.
  rewrite Hsz. do 2 f_equal. case_bool_decide; [done|lia].
Qed.

Lemma append_effect_witness :
  (1 ≤ 3 ∧ reachable 3 five_of_three)
  ∧ CyclicBufferTwo.append 6 five_of_three
    = Ok {| CyclicBufferTwo.buffer := [4; 5; 6];
            CyclicBufferTwo.size := 3;
            CyclicBufferTwo.position := 0;
            CyclicBufferTwo.count := 3 |}.
Proof.
  assert (H3 : reachable 3 five_of_three) by (exists [1; 2; 3; 4; 5]; reflexivity).
  split; [split; [lia|exact H3]|].
  apply (append_effect 3 five_of_three 6); [lia|exact H3].
Defined.

(** C9 ([append] and [get_buffer] never fail): in every reachable state of
    a [CyclicBufferTwo] of capacity [c >= 1], [append(item)] succeeds for
    every item and leads to a reachable state, and [get_buffer()] succeeds;
    the index written by [append] is inside the storage and the modulus it
    divides by is not zero. *)
Theorem append_get_buffer_total `{!PyInt item} (c : Z)
    (self : CyclicBufferTwo.t item) (x : item) :
  1 ≤ c → reachable c self →
  (∃ self', CyclicBufferTwo.append x self = Ok self' ∧ reachable c self')
  ∧ (∃ ys, CyclicBufferTwo.get_buffer self = Ok ys)
  ∧ (∃ storage,
       Py.setitem (CyclicBufferTwo.buffer self) (CyclicBufferTwo.position self) x
       = Ok storage)
  ∧ (∃ position,
       Py.mod_ (CyclicBufferTwo.position self + 1) (CyclicBufferTwo.size self)
       = Ok position).
Proof.
  intros Hc Hreach. destruct (reachable_inv c self Hc Hreach) as (xs & Hinv).
  destruct (inv_append c xs x self Hc Hinv) as (self' & Happ & _).
  destruct (inv_bounds c xs self Hc Hinv) as [Hp _].
  split; [exists self'; split; [done|by eapply reachable_append]|].
  split; [eexists; by apply inv_contents|].
  split.
  - rewrite setitem_in_range; [eauto|]. rewrite (inv_len _ _ _ Hinv). lia.
  - rewrite mod_nonzero; [eauto|]. rewrite (inv_size _ _ _ Hinv). lia.
Qed.

Lemma append_get_buffer_total_witness :
  (1 ≤ 5 ∧ reachable 5 two_of_five)
  ∧ (∃ self', CyclicBufferTwo.append 9 two_of_five = Ok self' ∧ reachable 5 self')
  ∧ (∃ ys, CyclicBufferTwo.get_buffer two_of_five = Ok ys).
Proof.
  assert (H5 : reachable 5 two_of_five) by (exists [7; 8]; reflexivity).
  split; [split; [lia|exact H5]|].
  destruct (append_get_buffer_total 5 two_of_five 9) as (Happ & Hget & _);
    [lia|exact H5|].
  split; [exact Happ|exact Hget].
Defined.

(** C10 (closed form of the cursor and the count): for a
    [CyclicBufferTwo] constructed with [buffer_size = c >= 1], the [n]
    appends of any sequence of [n] items succeed and leave
    [count == min(n, c)] and [position == n mod c], so that
    [0 <= position < c] and [0 <= count <= c]. *)
Theorem count_position_closed_form `{!PyInt item} (c : Z) (xs : list item) :
  1 ≤ c →
  ∃ self,
    run_two c xs = Ok self
    ∧ CyclicBufferTwo.count self = Py.len xs `min` c
    ∧ CyclicBufferTwo.position self = Py.len xs `mod` c
    ∧ 0 ≤ CyclicBufferTwo.position self < c
    ∧ 0 ≤ CyclicBufferTwo.count self ≤ c.
Proof.
  intros Hc. destruct (run_two_inv c xs Hc) as (self & Hrun & Hinv).
  destruct (inv_bounds c xs self Hc Hinv) as [Hp Hcnt].
  exists self. split; [done|].
  split; [by apply inv_count|]. split; [by apply inv_position|]. done.
Qed.

Lemma count_position_closed_form_witness :
  1 ≤ 3
  ∧ ∃ self,
      run_two 3 [1; 2; 3; 4; 5] = Ok self
      ∧ CyclicBufferTwo.count self = Py.len [1; 2; 3; 4; 5] `min` 3
      ∧ CyclicBufferTwo.position self = Py.len [1; 2; 3; 4; 5] `mod` 3
      ∧ 0 ≤ CyclicBufferTwo.position self < 3
      ∧ 0 ≤ CyclicBufferTwo.count self ≤ 3.
Proof.
  split; [lia|apply (count_position_closed_form 3 [1; 2; 3; 4; 5]); lia].
Defined.

(** * The scenarios of the specification, run on both buffers *)

Example overwrite_two :
  (self ← run_two 3 [1; 2; 3; 4; 5];
   ys ← CyclicBufferTwo.get_buffer self;
   oldest ← CyclicBufferTwo.peek_bottom self;
   newest ← CyclicBufferTwo.peek_top self;
   self ← CyclicBufferTwo.append 6 self;
   zs ← CyclicBufferTwo.get_buffer self;
   Ok (ys, oldest, newest, zs))
  = Ok ([3; 4; 5], 3, 5, [4; 5; 6]).
Proof. reflexivity. Qed.

Example overwrite_one :
  (self ← run_one 3 [1; 2; 3; 4; 5];
   ys ← CyclicBufferOne.get_buffer self;
   oldest ← CyclicBufferOne.peek_bottom self;
   newest ← CyclicBufferOne.peek_top self;
   self ← CyclicBufferOne.append 6 self;
   zs ← CyclicBufferOne.get_buffer self;
   Ok (ys, oldest, newest, zs))
  = Ok ([3; 4; 5], 3, 5, [4; 5; 6]).
Proof. reflexivity. Qed.

Example partial_fill_two :
  (self ← run_two 5 [7; 8];
   ys ← CyclicBufferTwo.get_buffer self;
   oldest ← CyclicBufferTwo.peek_bottom self;
   newest ← CyclicBufferTwo.peek_top self;
   Ok (self, ys, oldest, newest))
  = Ok (two_of_five, [7; 8], 7, 8).
Proof. reflexivity. Qed.

(** With a size of zero the two classes part ways at the first [append]:
    the deque drops the item, the list has no slot to write. *)
Example size_zero_one :
  (self ← run_one 0 [1; 2]; CyclicBufferOne.get_buffer self) = Ok [].
Proof. reflexivity. Qed.

Example size_zero_two :
  run_two 0 [1; 2] = Raise IndexError.
Proof. reflexivity. Qed.

(** * Further properties of the buffers *)

Section more_facts.
Context {item : Type}.
Implicit Types (xs ys : list item) (x : item).

Lemma head_lastn_lookup (n : nat) xs :
  head (lastn n xs) = xs !! (length xs - n)%nat.
Proof.
  unfold lastn. rewrite head_lookup, lookup_drop. f_equal. lia.
Qed.

Lemma lastn_snoc_cases (n : nat) xs x :
  lastn n (xs ++ [x])
  = if decide (length xs < n)%nat then lastn n xs ++ [x]
    else if decide (n = 0)%nat then [] else tail (lastn n xs) ++ [x].
Proof.
  case_decide as Hlt.
  - rewrite !lastn_short; [done|lia|]. rewrite length_app. simpl. lia.
  - case_decide as Hz.
    + unfold lastn. rewrite drop_ge; [done|lia].
    + apply lastn_snoc; lia.
Qed.
End more_facts.

(** X1 (order of the contents, list-based buffer): for every capacity
    [c >= 1] and every sequence [xs] of appended items, the appends succeed
    and [get_buffer()] is the last [c] items of [xs], in the order of their
    appends (all of [xs] when it has fewer than [c] items). *)
Theorem two_keeps_last_items `{!PyInt item} (c : Z) (xs : list item) :
  1 ≤ c →
  ∃ self,
    run_two c xs = Ok self
    ∧ CyclicBufferTwo.get_buffer self
      = Ok (drop (length xs - Z.to_nat c) xs).
Proof.
  intros Hc. destruct (run_two_inv c xs Hc) as (self & Hrun & Hinv).
  exists self. split; [done|]. by apply inv_contents.
Qed.

Lemma two_keeps_last_items_witness :
  1 ≤ 2
  ∧ ∃ self,
      run_two 2 [5; 1; 4; 1] = Ok self
      ∧ CyclicBufferTwo.get_buffer self = Ok [4; 1].
Proof. split; [lia|apply (two_keeps_last_items 2 [5; 1; 4; 1]); lia]. Defined.

(** X2 (order of the contents, deque-based buffer): for every capacity
    [c >= 0] and every sequence [xs] of appended items, the appends succeed
    and [get_buffer()] is the last [c] items of [xs], in the order of their
    appends; it has at most [c] items. *)
Theorem one_keeps_last_items {item : Type} (c : Z) (xs : list item) :
  0 ≤ c →
  ∃ self ys,
    run_one c xs = Ok self
    ∧ CyclicBufferOne.get_buffer self = Ok ys
    ∧ ys = drop (length xs - Z.to_nat c) xs
    ∧ Py.len ys ≤ c.
Proof.
  intros Hc. destruct (run_one_inv c xs Hc) as (self & Hrun & Hinv).
  exists self, (lastn (Z.to_nat c) xs).
  split; [done|]. split; [by apply inv_one_get_buffer|]. split; [done|].
  unfold Py.len. rewrite length_lastn. lia.
Qed.

Lemma one_keeps_last_items_witness :
  0 ≤ 2
  ∧ ∃ self ys,
      run_one 2 [5; 1; 4; 1] = Ok self
      ∧ CyclicBufferOne.get_buffer self = Ok ys
      ∧ ys = [4; 1]
      ∧ Py.len ys ≤ 2.
Proof. split; [lia|apply (one_keeps_last_items 2 [5; 1; 4; 1]); lia]. Defined.

(** X3 (one [append], seen through [get_buffer]): in a reachable state of a
    [CyclicBufferTwo] of capacity [c >= 1] whose contents are [ys],
    [append(x)] leaves the contents [ys + [x]] while the buffer is not full
    ([count < size]), and [ys[1:] + [x]] once it is: the oldest item goes,
    the others keep their order. *)
Theorem two_append_shifts `{!PyInt item} (c : Z) (self : CyclicBufferTwo.t item)
    (ys : list item) (x : item) :
  1 ≤ c → reachable c self →
  CyclicBufferTwo.get_buffer self = Ok ys →
  ∃ self',
    CyclicBufferTwo.append x self = Ok self'
    ∧ CyclicBufferTwo.get_buffer self'
      = Ok ((if bool_decide (CyclicBufferTwo.count self < CyclicBufferTwo.size self)
             then ys else tail ys) ++ [x]).
Proof.
  intros Hc Hreach Hys. destruct (reachable_inv c self Hc Hreach) as (xs & Hinv).
  destruct (inv_append c xs x self Hc Hinv) as (self' & Happ & Hinv').
  exists self'. split; [done|].
  rewrite (inv_contents _ _ _ Hinv) in Hys. injection Hys as <-.
  rewrite (inv_contents _ _ _ Hinv'), lastn_snoc_cases.
  rewrite (inv_count _ _ _ Hinv), (inv_size _ _ _ Hinv). unfold Py.len.
  case_decide; case_bool_decide; try lia; [done|].
  case_decide; [lia|done].
Qed.

Lemma two_append_shifts_witness :
  (1 ≤ 3 ∧ reachable 3 five_of_three
   ∧ CyclicBufferTwo.get_buffer five_of_three = Ok [3; 4; 5])
  ∧ ∃ self',
      CyclicBufferTwo.append 6 five_of_three = Ok self'
      ∧ CyclicBufferTwo.get_buffer self' = Ok [4; 5; 6].
Proof.
  assert (H3 : reachable 3 five_of_three) by (exists [1; 2; 3; 4; 5]; reflexivity).
  split; [split; [lia|split; [exact H3|reflexivity]]|].
  apply (two_append_shifts 3 five_of_three [3; 4; 5] 6); [lia|exact H3|reflexivity].
Defined.

(** X4 (the peeks, list-based buffer, in terms of what was appended): for
    every capacity [c >= 1] and every non-empty sequence [xs] of appended
    items, [peek_top()] returns the last item of [xs] and [peek_bottom()]
    returns the item [c - 1] appends before it, or the first item of [xs]
    when fewer than [c] were appended. *)
Theorem two_peeks_of_appended `{!PyInt item} (c : Z) (xs : list item) :
  1 ≤ c → xs ≠ [] →
  ∃ self newest oldest,
    run_two c xs = Ok self
    ∧ CyclicBufferTwo.peek_top self = Ok newest
    ∧ last xs = Some newest
    ∧ CyclicBufferTwo.peek_bottom self = Ok oldest
    ∧ xs !! (length xs - Z.to_nat c)%nat = Some oldest.
Proof.
  intros Hc Hne. destruct (run_two_inv c xs Hc) as (self & Hrun & Hinv).
  destruct (last xs) as [t|] eqn:Ht; [|by apply last_None in Ht].
  destruct (head_lastn (Z.to_nat c) xs) as [b Hb]; [lia|done|].
  exists self, t, b. split; [done|].
  split; [by eapply inv_peek_top|]. split; [done|].
  split; [by eapply inv_peek_bottom|]. by rewrite <-head_lastn_lookup.
Qed.

Lemma two_peeks_of_appended_witness :
  (1 ≤ 2 ∧ [5; 1; 4] ≠ [])
  ∧ ∃ self newest oldest,
      run_two 2 [5; 1; 4] = Ok self
      ∧ CyclicBufferTwo.peek_top self = Ok newest
      ∧ last [5; 1; 4] = Some newest
      ∧ CyclicBufferTwo.peek_bottom self = Ok oldest
      ∧ [5; 1; 4] !! (length [5; 1; 4] - Z.to_nat 2)%nat = Some oldest.
Proof.
  split; [split; [lia|discriminate]|].
  apply (two_peeks_of_appended 2 [5; 1; 4]); [lia|discriminate].
Defined.

(** X5 (the peeks, deque-based buffer, in terms of what was appended): for
    every capacity [c >= 1] and every non-empty sequence [xs] of appended
    items, [peek_top()] returns the last item of [xs] and [peek_bottom()]
    returns the item [c - 1] appends before it, or the first item of [xs]
    when fewer than [c] were appended. *)
Theorem one_peeks_of_appended {item : Type} (c : Z) (xs : list item) :
  1 ≤ c → xs ≠ [] →
  ∃ self newest oldest,
    run_one c xs = Ok self
    ∧ CyclicBufferOne.peek_top self = Ok newest
    ∧ last xs = Some newest
    ∧ CyclicBufferOne.peek_bottom self = Ok oldest
    ∧ xs !! (length xs - Z.to_nat c)%nat = Some oldest.
Proof.
  intros Hc Hne. destruct (run_one_inv c xs) as (self & Hrun & _ & Hitems); [lia|].
  destruct (last xs) as [t|] eqn:Ht; [|by apply last_None in Ht].
  destruct (head_lastn (Z.to_nat c) xs) as [b Hb]; [lia|done|].
  exists self, t, b. split; [done|].
  split; [apply one_peek_top_last; by rewrite Hitems, last_lastn by lia|].
  split; [done|].
  split; [apply one_peek_bottom_first; by rewrite Hitems|].
  by rewrite <-head_lastn_lookup.
Qed.

Lemma one_peeks_of_appended_witness :
  (1 ≤ 2 ∧ [5; 1; 4] ≠ [])
  ∧ ∃ self newest oldest,
      run_one 2 [5; 1; 4] = Ok self
      ∧ CyclicBufferOne.peek_top self = Ok newest
      ∧ last [5; 1; 4] = Some newest
      ∧ CyclicBufferOne.peek_bottom self = Ok oldest
      ∧ [5; 1; 4] !! (length [5; 1; 4] - Z.to_nat 2)%nat = Some oldest.
Proof.
  split; [split; [lia|discriminate]|].
  apply (one_peeks_of_appended 2 [5; 1; 4]); [lia|discriminate].
Defined.

Section storage_facts.
Context `{!PyInt item}.
Implicit Types (xs : list item) (x : item) (self : CyclicBufferTwo.t item).

Lemma inv_append_buffer c xs x self self' :
  1 ≤ c → inv c xs self → CyclicBufferTwo.append x self = Ok self' →
  CyclicBufferTwo.buffer self'
  = <[Z.to_nat (Py.len xs `mod` c) := x]> (CyclicBufferTwo.buffer self).
Proof.
  intros Hc Hinv. destruct (inv_bounds c xs self Hc Hinv) as [Hp _].
  unfold CyclicBufferTwo.append.
  rewrite setitem_in_range by (rewrite (inv_len _ _ _ Hinv); lia).
  rewrite mod_nonzero by (rewrite (inv_size _ _ _ Hinv); lia). simpl.
  intros [= <-]. simpl. by rewrite (inv_position _ _ _ Hinv).
Qed.

Lemma run_two_snoc_inv c xs x self' :
  1 ≤ c → run_two c (xs ++ [x]) = Ok self' →
  ∃ self, run_two c xs = Ok self ∧ inv c xs self
          ∧ CyclicBufferTwo.append x self = Ok self'.
Proof.
  intros Hc Hrun. destruct (run_two_inv c xs Hc) as (self & Hrun0 & Hinv).
  exists self. split; [done|]. split; [done|].
  by rewrite run_two_snoc, Hrun0 in Hrun.
Qed.

Lemma mod_inj_window (a b c : Z) :
  0 < c → a ≤ b < a + c → a `mod` c = b `mod` c → a = b.
Proof.
  intros Hc Hab Hmod.
  pose proof (Zminus_mod b a c) as Hsub.
  rewrite Hmod, Z.sub_diag, Z.mod_0_l in Hsub by lia.
  rewrite Z.mod_small in Hsub by lia. lia.
Qed.
End storage_facts.

(** X6 (the storage while the buffer fills): for every capacity [c >= 1],
    after the appends of at most [c] items [xs] the storage of a
    [CyclicBufferTwo] is [xs] followed by the zeros it was constructed with,
    one for each slot not written yet. *)
Theorem two_storage_while_filling `{!PyInt item} (c : Z) (xs : list item) :
  1 ≤ c → Py.len xs ≤ c →
  ∃ self,
    run_two c xs = Ok self
    ∧ CyclicBufferTwo.buffer self
      = xs ++ replicate (Z.to_nat c - length xs) (py_int 0).
Proof.
  intros Hc. unfold Py.len. induction xs as [|x xs IH] using rev_ind; intros Hlen.
  - eexists. split; [done|]. simpl. unfold Py.repeat. f_equal. lia.
  - rewrite length_app in Hlen. simpl in Hlen.
    destruct IH as (self & Hrun & Hbuf); [lia|].
    destruct (run_two_inv c (xs ++ [x]) Hc) as (self' & Hrun' & _).
    destruct (run_two_snoc_inv c xs x self' Hc Hrun') as (self0 & Hrun0 & Hinv & Happ).
    assert (self0 = self) as -> by congruence.
    exists self'. split; [done|].
    rewrite (inv_append_buffer c xs x self self' Hc Hinv Happ), Hbuf.
    unfold Py.len. rewrite Z.mod_small, Nat2Z.id by lia.
    rewrite insert_app_r_alt by lia.
    replace (length xs - length xs)%nat with 0%nat by lia.
    rewrite length_app. simpl.
    replace (Z.to_nat c - length xs)%nat
      with (S (Z.to_nat c - (length xs + 1))) by lia.
    simpl. by rewrite <-app_assoc.
Qed.

Lemma two_storage_while_filling_witness :
  (1 ≤ 4 ∧ Py.len [7; 8] ≤ 4)
  ∧ ∃ self,
      run_two 4 [7; 8] = Ok self
      ∧ CyclicBufferTwo.buffer self = [7; 8; 0; 0].
Proof.
  split; [split; [lia|unfold Py.len; simpl; lia]|].
  destruct (two_storage_while_filling 4 [7; 8]) as (self & Hrun & Hbuf);
    [lia|unfold Py.len; simpl; lia|].
  exists self. split; [exact Hrun|exact Hbuf].
Defined.

(** X7 (where an item is stored): for every capacity [c >= 1], after the
    appends of the items [xs] the [j]-th of them (counted from zero), as
    long as it is one of the last [c], is held by the slot [j mod c] of the
    storage of a [CyclicBufferTwo]. *)
Theorem two_slot_of_item `{!PyInt item} (c : Z) (xs : list item) :
  1 ≤ c →
  ∃ self,
    run_two c xs = Ok self
    ∧ ∀ j : nat,
        (length xs - Z.to_nat c ≤ j < length xs)%nat →
        CyclicBufferTwo.buffer self !! Z.to_nat (Z.of_nat j `mod` c) = xs !! j.
Proof.
  intros Hc. induction xs as [|x xs IH] using rev_ind.
  - eexists. split; [done|]. intros j Hj. simpl in Hj. lia.
  - destruct IH as (self & Hrun & Hslots).
    destruct (run_two_inv c (xs ++ [x]) Hc) as (self' & Hrun' & _).
    destruct (run_two_snoc_inv c xs x self' Hc Hrun') as (self0 & Hrun0 & Hinv & Happ).
    assert (self0 = self) as -> by congruence.
    exists self'. split; [done|]. intros j Hj.
    rewrite length_app in Hj. simpl in Hj.
    rewrite (inv_append_buffer c xs x self self' Hc Hinv Happ). unfold Py.len.
    pose proof (inv_len _ _ _ Hinv) as Hlen. unfold Py.len in Hlen.
    assert (0 ≤ Z.of_nat (length xs) `mod` c < c) by (apply Z.mod_pos_bound; lia).
    destruct (decide (j = length xs)) as [->|Hne].
    + rewrite list_lookup_insert_eq by lia.
      by rewrite lookup_app_r, Nat.sub_diag by lia.
    + assert (0 ≤ Z.of_nat j `mod` c < c) by (apply Z.mod_pos_bound; lia).
      rewrite list_lookup_insert_ne.
      * rewrite lookup_app_l by lia. apply Hslots. lia.
      * intros Heq. apply Z2Nat.inj in Heq; [|lia..].
        apply Hne. apply Nat2Z.inj.
        apply (mod_inj_window _ _ c); [lia|lia|done].
Qed.

Lemma two_slot_of_item_witness :
  1 ≤ 3
  ∧ ∃ self,
      run_two 3 [1; 2; 3; 4; 5] = Ok self
      ∧ ∀ j : nat,
          (length [1; 2; 3; 4; 5] - Z.to_nat 3 ≤ j < length [1; 2; 3; 4; 5])%nat →
          CyclicBufferTwo.buffer self !! Z.to_nat (Z.of_nat j `mod` 3)
          = [1; 2; 3; 4; 5] !! j.
Proof. split; [lia|apply (two_slot_of_item 3 [1; 2; 3; 4; 5]); lia]. Defined.

(** X8 (sizes that never change): in every reachable state of a
    [CyclicBufferTwo] constructed with [buffer_size = c], whatever [c], the
    storage has [max(c, 0)] slots, [size] is [c], and [get_buffer()] returns
    exactly [count] items. *)
Theorem two_lengths `{!PyInt item} (c : Z) (self : CyclicBufferTwo.t item) :
  reachable c self →
  CyclicBufferTwo.size self = c
  ∧ Py.len (CyclicBufferTwo.buffer self) = c `max` 0
  ∧ ∃ ys, CyclicBufferTwo.get_buffer self = Ok ys
          ∧ Py.len ys = CyclicBufferTwo.count self.
Proof.
  intros Hreach. destruct (decide (1 ≤ c)) as [Hc|Hc].
  - destruct (reachable_inv c self Hc Hreach) as (xs & Hinv).
    split; [by apply (inv_size _ _ _ Hinv)|].
    split; [rewrite (inv_len _ _ _ Hinv); lia|].
    exists (lastn (Z.to_nat c) xs). split; [by apply inv_contents|].
    rewrite (inv_count _ _ _ Hinv). unfold Py.len. rewrite length_lastn. lia.
  - rewrite (reachable_nonpos c self) by (done || lia). simpl.
    split; [done|]. split; [unfold Py.len; simpl; lia|].
    exists []. split; [|done].
    unfold CyclicBufferTwo.get_buffer. simpl.
    by rewrite bool_decide_eq_false_2 by lia.
Qed.

Lemma two_lengths_witness :
  reachable 5 two_of_five
  ∧ CyclicBufferTwo.size two_of_five = 5
  ∧ Py.len (CyclicBufferTwo.buffer two_of_five) = 5 `max` 0
  ∧ ∃ ys, CyclicBufferTwo.get_buffer two_of_five = Ok ys
          ∧ Py.len ys = CyclicBufferTwo.count two_of_five.
Proof.
  assert (H5 : reachable 5 two_of_five) by (exists [7; 8]; reflexivity).
  split; [exact H5|exact (two_lengths 5 two_of_five H5)].
Defined.

(** X9 (a [CyclicBufferTwo] without capacity): for every [buffer_size] that
    is zero or negative, and that the interpreter takes as a size
    ([buffer_size >= -2**63]), the buffer is constructed, but it accepts
    nothing:
    [append] raises [IndexError] for every item, so the fresh state is the
    only reachable one; [get_buffer()] returns the empty list and both peeks
    raise [IndexError]. *)
Theorem two_without_capacity `{!PyInt item} (c : Z) :
  Py.ssize_t_min ≤ c ≤ 0 →
  ∃ self : CyclicBufferTwo.t item,
    CyclicBufferTwo.__init__ c = Ok self
    ∧ (∀ x, CyclicBufferTwo.append x self = Raise IndexError)
    ∧ (∀ self', reachable c self' → self' = self)
    ∧ CyclicBufferTwo.get_buffer self = Ok []
    ∧ CyclicBufferTwo.peek_top self = Raise IndexError
    ∧ CyclicBufferTwo.peek_bottom self = Raise IndexError.
Proof.
  intros [_ Hc]. eexists. split; [done|].
  unfold Py.repeat. replace (Z.to_nat c) with 0%nat by lia. simpl.
  split; [done|]. split.
  - intros self' Hreach. by apply reachable_nonpos.
  - unfold CyclicBufferTwo.get_buffer. simpl.
    by rewrite bool_decide_eq_false_2 by lia.
Qed.

Lemma two_without_capacity_witness :
  Py.ssize_t_min ≤ -2 ≤ 0
  ∧ ∃ self : CyclicBufferTwo.t Z,
      CyclicBufferTwo.__init__ (-2) = Ok self
      ∧ (∀ x, CyclicBufferTwo.append x self = Raise IndexError)
      ∧ (∀ self', reachable (-2) self' → self' = self)
      ∧ CyclicBufferTwo.get_buffer self = Ok []
      ∧ CyclicBufferTwo.peek_top self = Raise IndexError
      ∧ CyclicBufferTwo.peek_bottom self = Raise IndexError.
Proof.
  assert (Hc : Py.ssize_t_min ≤ -2 ≤ 0) by (unfold Py.ssize_t_min; lia).
  split; [exact Hc|exact (two_without_capacity (item:=Z) (-2) Hc)].
Defined.

(** X10 (a [CyclicBufferOne] of capacity zero): constructed with
    [buffer_size = 0], the buffer takes every [append] without an error and
    keeps nothing: after any sequence of appends [get_buffer()] returns the
    empty list and both peeks raise [IndexError]. *)
Theorem one_of_capacity_zero {item : Type} (xs : list item) :
  ∃ self,
    run_one 0 xs = Ok self
    ∧ CyclicBufferOne.get_buffer self = Ok []
    ∧ CyclicBufferOne.peek_top self = Raise IndexError
    ∧ CyclicBufferOne.peek_bottom self = Raise IndexError.
Proof.
  destruct (run_one_inv 0 xs) as (self & Hrun & _ & Hitems); [lia|].
  assert (deque.items (CyclicBufferOne.buffer self) = []) as Hnil.
  { rewrite Hitems. unfold lastn. apply drop_ge. simpl. lia. }
  exists self. split; [done|].
  split; [unfold CyclicBufferOne.get_buffer, deque.to_list; by rewrite Hnil|].
  by apply one_peek_empty.
Qed.

(** ** The test drivers *)
Section test_facts.
Implicit Types (xs indices : list Z) (i c : Z).

Lemma two_test_step c xs i (self : CyclicBufferTwo.t Z) :
  1 ≤ c → inv c xs self →
  ∃ self', test_buffer_step i self = Ok self'
           ∧ CyclicBufferTwo.append i self = Ok self'
           ∧ inv c (xs ++ [i]) self'.
Proof.
  intros Hc Hinv.
  destruct (inv_append c xs i self Hc Hinv) as (self' & Happ & Hinv').
  exists self'. split; [|done].
  destruct (head_lastn (Z.to_nat c) (xs ++ [i])) as [b Hb]; [lia|by destruct xs|].
  unfold test_buffer_step. cbn [buffer_append buffer_peek_top buffer_peek_bottom two_buffer].
  rewrite Happ. cbn [mbind result_bind].
  rewrite mod_nonzero by lia. cbn [mbind result_bind].
  case_bool_decide; [|done].
  rewrite (inv_peek_top c (xs ++ [i]) self' i Hc Hinv') by apply last_snoc.
  by rewrite (inv_peek_bottom c (xs ++ [i]) self' b Hc Hinv' Hb).
Qed.

Lemma two_test_loop c xs indices (self : CyclicBufferTwo.t Z) :
  1 ≤ c → inv c xs self →
  ∃ self', test_buffer_loop indices self = Ok self'
           ∧ CyclicBufferTwo.append_all indices self = Ok self'
           ∧ inv c (xs ++ indices) self'.
Proof.
  intros Hc. revert xs self.
  induction indices as [|i indices IH]; intros xs self Hinv.
  - exists self. rewrite app_nil_r. done.
  - destruct (two_test_step c xs i self Hc Hinv) as (self1 & Hstep & Happ & Hinv1).
    destruct (IH (xs ++ [i]) self1 Hinv1) as (self' & Hloop & Hall & Hinv').
    exists self'. cbn [test_buffer_loop CyclicBufferTwo.append_all].
    rewrite Hstep, Happ. cbn [mbind result_bind].
    rewrite <-app_assoc in Hinv'. done.
Qed.

Lemma one_test_step c xs i (self : CyclicBufferOne.t Z) :
  1 ≤ c → inv_one c xs self →
  ∃ self', test_buffer_step i self = Ok self'
           ∧ CyclicBufferOne.append i self = Ok self'
           ∧ inv_one c (xs ++ [i]) self'.
Proof.
  intros Hc Hinv.
  destruct (inv_one_append c xs i self) as (self' & Happ & Hinv'); [lia|done|].
  exists self'. split; [|done].
  destruct (head_lastn (Z.to_nat c) (xs ++ [i])) as [b Hb]; [lia|by destruct xs|].
  destruct Hinv' as [_ Hitems].
  unfold test_buffer_step. cbn [buffer_append buffer_peek_top buffer_peek_bottom one_buffer].
  rewrite Happ. cbn [mbind result_bind].
  rewrite mod_nonzero by lia. cbn [mbind result_bind].
  case_bool_decide; [|done].
  rewrite (one_peek_top_last self' i)
    by (by rewrite Hitems, last_lastn, last_snoc by lia).
  by rewrite (one_peek_bottom_first self' b) by (by rewrite Hitems).
Qed.

Lemma one_test_loop c xs indices (self : CyclicBufferOne.t Z) :
  1 ≤ c → inv_one c xs self →
  ∃ self', test_buffer_loop indices self = Ok self'
           ∧ CyclicBufferOne.append_all indices self = Ok self'
           ∧ inv_one c (xs ++ indices) self'.
Proof.
  intros Hc. revert xs self.
  induction indices as [|i indices IH]; intros xs self Hinv.
  - exists self. rewrite app_nil_r. done.
  - destruct (one_test_step c xs i self Hc Hinv) as (self1 & Hstep & Happ & Hinv1).
    destruct (IH (xs ++ [i]) self1 Hinv1) as (self' & Hloop & Hall & Hinv').
    exists self'. cbn [test_buffer_loop CyclicBufferOne.append_all].
    rewrite Hstep, Happ. cbn [mbind result_bind].
    rewrite <-app_assoc in Hinv'. done.
Qed.

Lemma lastn_range c :
  1 ≤ c ≤ 900000 →
  lastn (Z.to_nat c) (Py.range 900000) = seqZ (900000 - c) c.
Proof.
  intros Hc. unfold Py.range.
  rewrite <-(lastn_seqZ c (900000 - c)) by lia.
  do 2 f_equal. lia.
Qed.
End test_facts.

Section test_runs.
Implicit Types (c : Z).

Lemma test_buffer_two_at c :
  1 ≤ c →
  ∃ self,
    (buffer ← CyclicBufferTwo.__init__ c; test_buffer buffer) = Ok self
    ∧ run_two c (Py.range 900000) = Ok self
    ∧ (c ≤ 900000 → CyclicBufferTwo.get_buffer self = Ok (seqZ (900000 - c) c)).
Proof.
  intros Hc. unfold run_two, test_buffer.
  generalize (lastn_range c). generalize (Py.range 900000). intros indices Hlast.
  destruct (CyclicBufferTwo.__init__ (item:=Z) c) as [fresh|e] eqn:Hinit; [|done].
  cbn [mbind result_bind].
  destruct (two_test_loop c [] indices fresh Hc (inv_init c fresh Hc Hinit))
    as (self & Hloop & Hall & Hinv).
  exists self. split; [exact Hloop|]. split; [exact Hall|].
  intros Hle. rewrite (inv_contents _ _ _ Hinv). simpl.
  by rewrite Hlast by lia.
Qed.

Lemma test_buffer_one_at c :
  1 ≤ c →
  ∃ self,
    (buffer ← CyclicBufferOne.__init__ c; test_buffer buffer) = Ok self
    ∧ run_one c (Py.range 900000) = Ok self
    ∧ (c ≤ 900000 → CyclicBufferOne.get_buffer self = Ok (seqZ (900000 - c) c)).
Proof.
  intros Hc. unfold run_one, test_buffer.
  generalize (lastn_range c). generalize (Py.range 900000). intros indices Hlast.
  destruct (run_one_inv (item:=Z) c []) as (fresh & Hinit & Hinv0); [lia|].
  unfold run_one in Hinit.
  destruct (CyclicBufferOne.__init__ (item:=Z) c) as [fresh'|e]; [|done].
  cbn [mbind result_bind CyclicBufferOne.append_all] in *. injection Hinit as ->.
  destruct (one_test_loop c [] indices fresh Hc Hinv0)
    as (self & Hloop & Hall & Hinv).
  exists self. split; [exact Hloop|]. split; [exact Hall|].
  intros Hle. rewrite (inv_one_get_buffer _ _ _ Hinv). simpl.
  by rewrite Hlast by lia.
Qed.
End test_runs.

(** X11 ([test_buffer_two] runs through): for every [buffer_size >= 1], the
    default of 10 included, [test_buffer_two] raises nothing: each of its
    900000 appends succeeds, and so does each of the peeks it makes after
    every hundredth append.  It leaves the buffer as the appends alone
    leave it, and for [buffer_size <= 900000] the buffer then holds the
    integers [900000 - buffer_size .. 900000). *)
Theorem test_buffer_two_runs (buffer_size : option Z) :
  1 ≤ default 10 buffer_size →
  ∃ self,
    test_buffer_two buffer_size = Ok self
    ∧ run_two (default 10 buffer_size) (Py.range 900000) = Ok self
    ∧ (default 10 buffer_size ≤ 900000 →
       CyclicBufferTwo.get_buffer self
       = Ok (seqZ (900000 - default 10 buffer_size) (default 10 buffer_size))).
Proof. intros Hc. unfold test_buffer_two. by apply test_buffer_two_at. Qed.

Lemma test_buffer_two_runs_witness :
  1 ≤ default 10 None
  ∧ ∃ self,
      test_buffer_two None = Ok self
      ∧ CyclicBufferTwo.get_buffer self = Ok (seqZ 899990 10).
Proof.
  assert (H10 : 1 ≤ default 10 None) by (simpl; lia).
  split; [exact H10|].
  destruct (test_buffer_two_runs None H10) as (self & Hrun & _ & Hget).
  exists self. split; [exact Hrun|]. apply Hget. simpl. lia.
Defined.

(** X12 ([test_buffer_one] runs through): for every [buffer_size >= 1], the
    default of 10 included, [test_buffer_one] raises nothing: each of its
    900000 appends succeeds, and so does each of the peeks it makes after
    every hundredth append.  It leaves the buffer as the appends alone
    leave it, and for [buffer_size <= 900000] the buffer then holds the
    integers [900000 - buffer_size .. 900000). *)
Theorem test_buffer_one_runs (buffer_size : option Z) :
  1 ≤ default 10 buffer_size →
  ∃ self,
    test_buffer_one buffer_size = Ok self
    ∧ run_one (default 10 buffer_size) (Py.range 900000) = Ok self
    ∧ (default 10 buffer_size ≤ 900000 →
       CyclicBufferOne.get_buffer self
       = Ok (seqZ (900000 - default 10 buffer_size) (default 10 buffer_size))).
Proof. intros Hc. unfold test_buffer_one. by apply test_buffer_one_at. Qed.

Lemma test_buffer_one_runs_witness :
  1 ≤ default 10 None
  ∧ ∃ self,
      test_buffer_one None = Ok self
      ∧ CyclicBufferOne.get_buffer self = Ok (seqZ 899990 10).
Proof.
  assert (H10 : 1 ≤ default 10 None) by (simpl; lia).
  split; [exact H10|].
  destruct (test_buffer_one_runs None H10) as (self & Hrun & _ & Hget).
  exists self. split; [exact Hrun|]. apply Hget. simpl. lia.
Defined.

(** X13 ([test_buffer_two] without capacity): for every [buffer_size] that
    is zero or negative, and that the interpreter takes as a size
    ([buffer_size >= -2**63]), [test_buffer_two] raises [IndexError]: the buffer
    is constructed, and the first [append] of the loop finds no slot to
    write. *)
Theorem test_buffer_two_without_capacity (buffer_size : option Z) :
  Py.ssize_t_min ≤ default 10 buffer_size ≤ 0 →
  test_buffer_two buffer_size = Raise IndexError.
Proof.
  intros [_ Hc]. unfold test_buffer_two, test_buffer, Py.range.
  rewrite seqZ_cons by lia.
  generalize (seqZ (Z.succ 0) (Z.pred 900000)). intros indices.
  cbn [mbind result_bind CyclicBufferTwo.__init__ test_buffer_loop].
  unfold test_buffer_step. cbn [buffer_append two_buffer].
  unfold CyclicBufferTwo.append, Py.repeat.
  cbn [CyclicBufferTwo.buffer CyclicBufferTwo.position].
  replace (Z.to_nat (default 10 buffer_size)) with 0%nat by lia.
  reflexivity.
Qed.

Lemma test_buffer_two_without_capacity_witness :
  Py.ssize_t_min ≤ default 10 (Some 0) ≤ 0
  ∧ test_buffer_two (Some 0) = Raise IndexError.
Proof.
  assert (H0 : Py.ssize_t_min ≤ default 10 (Some 0) ≤ 0)
    by (unfold Py.ssize_t_min; simpl; lia).
  split; [exact H0|exact (test_buffer_two_without_capacity (Some 0) H0)].
Defined.

(** X14 ([test_buffer_one] without capacity): with [buffer_size = 0],
    [test_buffer_one] raises [IndexError]: the first [append] is accepted
    and dropped, and the [peek_top()] that follows it finds the buffer
    empty.  With a negative [buffer_size] that the interpreter takes as a
    size ([buffer_size >= -2**63]) it raises the [ValueError] of the
    construction. *)
Theorem test_buffer_one_without_capacity (buffer_size : option Z) :
  Py.ssize_t_min ≤ default 10 buffer_size ≤ 0 →
  test_buffer_one buffer_size
  = Raise (if bool_decide (default 10 buffer_size = 0) then IndexError
           else ValueError).
Proof.
  intros [_ Hc]. unfold test_buffer_one, CyclicBufferOne.__init__, deque.new.
  destruct (decide (default 10 buffer_size = 0)) as [Hzero|Hneg].
  - rewrite Hzero. unfold test_buffer, Py.range.
    rewrite seqZ_cons by lia.
    generalize (seqZ (Z.succ 0) (Z.pred 900000)). intros indices.
    rewrite (bool_decide_eq_false_2 (0 < 0)) by lia.
    reflexivity.
  - rewrite (bool_decide_eq_true_2 (_ < 0)) by lia.
    by rewrite (bool_decide_eq_false_2 (_ = 0)).
Qed.

Lemma test_buffer_one_without_capacity_witness :
  Py.ssize_t_min ≤ default 10 (Some (-3)) ≤ 0
  ∧ test_buffer_one (Some (-3)) = Raise ValueError.
Proof.
  assert (H3 : Py.ssize_t_min ≤ default 10 (Some (-3)) ≤ 0)
    by (unfold Py.ssize_t_min; simpl; lia).
  split; [exact H3|exact (test_buffer_one_without_capacity (Some (-3)) H3)].
Defined.
